(** * CueMeet client: request / validation / error-normalisation pipeline

    A shallow embedding of [CueMeetClient] (the axios wrapper of the
    repository) and of its error hierarchy, followed by the properties of the
    written specification that can be settled on it.

    Conventions of the embedding:
    - a JavaScript string is a [string], one character per code unit;
    - a field or argument that TypeScript types as [string] but that a caller
      can leave out (the tests build such objects with [as any]) is an
      [option string]: [None] is [undefined];
    - an [async] method is a computation on the client that either returns
      (the promise resolves) or throws (the promise rejects); the client
      carries its axios instance, and the instance records every request
      handed to its adapter, the way a transport spy does. *)

From Stdlib Require Import List ZArith Bool Lia DecimalString Ascii String.
Import ListNotations.
Open Scope string_scope.
Set Warnings "-register-all".

(* ===================================================================== *)
(** ** JavaScript values and string built-ins                             *)
(* ===================================================================== *)

(** Decoded JSON bodies, plus [undefined]. Numbers are integers. *)
Inductive jsval :=
| JUndefined
| JNull
| JBool (b : bool)
| JNum (n : Z)
| JStr (s : string)
| JArr (l : list jsval)
| JObj (fields : list (string * jsval)).

(** [!!v] *)
Definition truthy (v : jsval) : bool :=
  match v with
  | JUndefined | JNull => false
  | JBool b => b
  | JNum n => negb (n =? 0)%Z
  | JStr s => negb (s =? "")
  | JArr _ | JObj _ => true
  end.

Fixpoint assoc (k : string) (fields : list (string * jsval)) : jsval :=
  match fields with
  | [] => JUndefined
  | (k', v) :: rest => if k' =? k then v else assoc k rest
  end.

(** [v?.k] on a decoded JSON value: only objects carry own properties that a
    JSON body can set; [undefined] and [null] short-circuit. *)
Definition opt_get (v : jsval) (k : string) : jsval :=
  match v with
  | JObj fields => assoc k fields
  | _ => JUndefined
  end.

(** [!x] for a possibly absent string. *)
Definition falsy (x : option string) : bool :=
  match x with
  | None => true
  | Some s => s =? ""
  end.

(** [typeof x !== 'string'] *)
Definition not_a_string (x : option string) : bool :=
  match x with
  | None => true
  | Some _ => false
  end.

(** The string behind a value that a guard has shown to be a string. *)
Definition str (x : option string) : string :=
  match x with
  | None => ""
  | Some s => s
  end.

(** [`${x}`] *)
Definition tpl (x : option string) : string :=
  match x with
  | None => "undefined"
  | Some s => s
  end.

(** [s.endsWith(t)] *)
Definition endsWith (s t : string) : bool :=
  (length t <=? length s)%nat &&
  (substring (length s - length t) (length t) s =? t).

(** Relative index of [slice]: negative counts from the end, clamped. *)
Definition rel_index (len : nat) (i : Z) : nat :=
  if (i <? 0)%Z then Z.to_nat (Z.max (Z.of_nat len + i) 0)
  else Nat.min (Z.to_nat i) len.

(** [s.slice(b, e)] *)
Definition slice (s : string) (b e : Z) : string :=
  let from := rel_index (length s) b in
  let to := rel_index (length s) e in
  substring from (to - from) s.

(** [s.includes(t)] *)
Definition includes (s t : string) : bool :=
  match index 0 t s with
  | Some _ => true
  | None => false
  end.

(** White space and line terminators among the one-byte code units. *)
Definition isWhiteSpace (c : ascii) : bool :=
  let n := nat_of_ascii c in
  ((9 <=? n) && (n <=? 13) || (n =? 32) || (n =? 160))%nat.

Fixpoint dropWhiteSpace (l : list ascii) : list ascii :=
  match l with
  | [] => []
  | c :: rest => if isWhiteSpace c then dropWhiteSpace rest else l
  end.

(** [s.trim()] *)
Definition trim (s : string) : string :=
  string_of_list_ascii
    (rev (dropWhiteSpace (rev (dropWhiteSpace (list_ascii_of_string s))))).

(* ===================================================================== *)
(** ** utils/errors: the typed error hierarchy                            *)
(* ===================================================================== *)

Record CueMeetError := {
  e_name : string;
  e_message : string;
  e_status : option Z;
  e_code : option string;
  e_details : option jsval
}.

(** [new CueMeetError(message, status, code, details)] *)
Definition new_CueMeetError (message : string) (status : option Z)
    (code : option string) (details : option jsval) : CueMeetError :=
  {| e_name := "CueMeetError"; e_message := message; e_status := status;
     e_code := code; e_details := details |}.

Definition with_name (n : string) (e : CueMeetError) : CueMeetError :=
  {| e_name := n; e_message := e_message e; e_status := e_status e;
     e_code := e_code e; e_details := e_details e |}.

(** [new ValidationError(message, details)] *)
Definition new_ValidationError (message : string) (details : option jsval)
    : CueMeetError :=
  with_name "ValidationError"
    (new_CueMeetError message (Some 400%Z) (Some "VALIDATION_ERROR") details).

(** [new AuthenticationError(message)] *)
Definition new_AuthenticationError (message : string) : CueMeetError :=
  with_name "AuthenticationError"
    (new_CueMeetError message (Some 401%Z) (Some "AUTHENTICATION_ERROR") None).

(** [new NotFoundError(message)] *)
Definition new_NotFoundError (message : string) : CueMeetError :=
  with_name "NotFoundError"
    (new_CueMeetError message (Some 404%Z) (Some "NOT_FOUND") None).

(** [new RateLimitError(message, retryAfter)] *)
Definition new_RateLimitError (message : string) (retryAfter : option Z)
    : CueMeetError :=
  with_name "RateLimitError"
    (new_CueMeetError message (Some 429%Z) (Some "RATE_LIMIT_EXCEEDED")
       (Some (JObj [("retryAfter",
                     match retryAfter with
                     | Some n => JNum n
                     | None => JUndefined
                     end)]))).

(* ===================================================================== *)
(** ** The axios boundary                                                 *)
(* ===================================================================== *)

Record AxiosResponse := {
  r_status : Z;
  r_data : jsval
}.

(** An [AxiosError]: [response] is present when the server answered,
    [request] when the request was sent. *)
Record AxiosError := {
  ax_message : string;
  ax_response : option AxiosResponse;
  ax_request : bool
}.

(** What a [catch] clause can receive. *)
Inductive thrown :=
| PlainError (message : string)       (* new Error(message) *)
| Typed (e : CueMeetError)            (* CueMeetError or a subclass *)
| Axios (e : AxiosError).

(** [error instanceof CueMeetError] *)
Definition instanceof_CueMeetError (error : thrown) : bool :=
  match error with
  | Typed _ => true
  | _ => false
  end.

(** [axios.isAxiosError(error)] *)
Definition isAxiosError (error : thrown) : bool :=
  match error with
  | Axios _ => true
  | _ => false
  end.

(** [error.message] *)
Definition message_of (error : thrown) : string :=
  match error with
  | PlainError m => m
  | Typed e => e_message e
  | Axios e => ax_message e
  end.

(* ===================================================================== *)
(** ** utils/types: request payloads                                      *)
(* ===================================================================== *)

Record UserData := {
  u_email : option string;
  u_name : option string
}.

Record ApiKeyData := {
  k_userId : option string;
  k_name : option string;
  k_expiresAt : option string;
  k_permissions : option (list string)
}.

Inductive RecordingMode := SPEAKER_VIEW | GALLERY_VIEW | AUDIO_ONLY.

Record CreateBotRequest := {
  b_name : option string;
  b_meetingUrl : option string;
  b_title : option string;
  b_recordingMode : option RecordingMode;
  b_joinAt : option string;
  b_leaveAt : option string;
  b_metadata : option jsval
}.

Record TranscriptQueryParams := {
  q_page : option Z;
  q_limit : option Z
}.

Record CueMeetClientOptions := {
  o_baseUrl : option string;
  o_timeout : option Z
}.

(** The object handed to axios as request body. *)
Inductive body :=
| BodyUser (userData : UserData)
| BodyApiKey (keyData : ApiKeyData)
| BodyUserId (userId : option string)        (* { userId } *)
| BodyBot (botData : CreateBotRequest).

Inductive Method := GET | POST | DELETE.

(** A request as the adapter receives it: the call's own arguments merged
    with the defaults of the instance. *)
Record AxiosRequestConfig := {
  method : Method;
  url : string;
  baseURL : option string;
  timeout : option Z;
  headers : list (string * string);
  data : option body;
  params : option TranscriptQueryParams
}.

Inductive AxiosResult :=
| Fulfilled (response : AxiosResponse)
| Rejected (error : thrown).

Record AxiosDefaults := {
  d_baseURL : option string;
  d_timeout : option Z;
  d_headers : list (string * string)
}.

(** An axios instance; [calls] is the list of the requests handed to the
    adapter so far, latest first. *)
Record AxiosInstance := {
  defaults : AxiosDefaults;
  adapter : AxiosRequestConfig -> AxiosResult;
  calls : list AxiosRequestConfig
}.

(** Built-ins of the JavaScript runtime that the client calls and that are
    not code of the repository. *)
Record Runtime := {
  (** [new URL(url)] does not throw *)
  URL_parses : string -> bool;
  (** [JSON.stringify(v)] *)
  JSON_stringify : jsval -> string;
  (** [String(v)] for a value that is not a string *)
  ToString : jsval -> string;
  (** the adapter of an instance made by [axios.create] *)
  network : AxiosRequestConfig -> AxiosResult;
  (** the headers that the defaults of the axios library itself add to the
      requests of an instance made by [axios.create] (Accept, ...) *)
  library_headers : list (string * string)
}.

(** The string an [Error] constructor stores for its [message] argument. *)
Definition message_string (rt : Runtime) (v : jsval) : string :=
  match v with
  | JStr s => s
  | _ => ToString rt v
  end.

(** [axios.create(config)]: the options given are merged with the defaults
    of the library. *)
Definition axios_create (rt : Runtime) (config : AxiosDefaults) : AxiosInstance :=
  {| defaults :=
       {| d_baseURL := d_baseURL config;
          d_timeout := d_timeout config;
          d_headers := (d_headers config ++ library_headers rt)%list |};
     adapter := network rt;
     calls := [] |}.

(* ===================================================================== *)
(** ** CueMeetClient                                                      *)
(* ===================================================================== *)

Record CueMeetClient := {
  baseUrl : string;
  client : AxiosInstance
}.

(** Outcome of a method: the promise resolves or rejects. *)
Inductive completion (A : Type) :=
| Return (a : A)
| Throw (e : thrown).
Arguments Return {A} a.
Arguments Throw {A} e.

Definition M (A : Type) : Type := CueMeetClient -> completion A * CueMeetClient.

Definition ret {A} (a : A) : M A := fun c => (Return a, c).

Definition throw {A} (e : thrown) : M A := fun c => (Throw e, c).

Definition bind {A B} (m : M A) (k : A -> M B) : M B :=
  fun c =>
    match m c with
    | (Return a, c') => k a c'
    | (Throw e, c') => (Throw e, c')
    end.

(** [try { m } catch (error) { handler }] *)
Definition try_catch {A} (m : M A) (handler : thrown -> M A) : M A :=
  fun c =>
    match m c with
    | (Return a, c') => (Return a, c')
    | (Throw e, c') => handler e c'
    end.

(** [if (cond) { m }] *)
Definition when (cond : bool) (m : M unit) : M unit :=
  if cond then m else ret tt.

Notation "x <- m ;; k" := (bind m (fun x => k))
  (at level 61, m at next level, right associativity).
Notation "m ;; k" := (bind m (fun _ => k))
  (at level 61, right associativity).

(** The requests the transport has seen. *)
Definition dispatched (c : CueMeetClient) : list AxiosRequestConfig :=
  calls (client c).

(** The expression both the constructor and [setBaseUrl] assign to
    [this.baseUrl]. *)
Definition normalizeBaseUrl (baseUrl : string) : string :=
  if endsWith baseUrl "/"
  then slice baseUrl 0 (-1) ++ "/api/v1"
  else baseUrl ++ "/api/v1".

(** axios merges the defaults of the instance into the arguments of a call. *)
Definition mergeConfig (instance : AxiosInstance) (m : Method) (url : string)
    (data : option body) (params : option TranscriptQueryParams)
    : AxiosRequestConfig :=
  {| method := m; url := url;
     baseURL := d_baseURL (defaults instance);
     timeout := d_timeout (defaults instance);
     headers := d_headers (defaults instance);
     data := data; params := params |}.

(** The client after its instance handed [config] to the adapter. *)
Definition recorded (config : AxiosRequestConfig) (c : CueMeetClient)
    : CueMeetClient :=
  {| baseUrl := baseUrl c;
     client := {| defaults := defaults (client c);
                  adapter := adapter (client c);
                  calls := config :: calls (client c) |} |}.

Section Client.

Variable rt : Runtime.

(** The response interceptor the constructor installs: the fulfilled
    handler is the identity, the rejected handler always throws. *)
Definition onFulfilled (response : AxiosResponse) : AxiosResponse := response.

Definition onRejected (error : thrown) : thrown :=
  match error with
  | Axios e =>
      let data :=
        match ax_response e with
        | Some response => r_data response
        | None => JUndefined
        end in
      let message :=
        if truthy (opt_get data "message") then opt_get data "message"
        else JStr (ax_message e) in
      let status := option_map r_status (ax_response e) in
      Typed (new_CueMeetError (message_string rt message) status None None)
  | _ => error
  end.

(** [new CueMeetClient(options, axiosInstance)] *)
Definition constructor (options : CueMeetClientOptions)
    (axiosInstance : option AxiosInstance) : completion CueMeetClient :=
  if falsy (o_baseUrl options)
  then Throw (PlainError "baseUrl is required for CueMeet client initialization")
  else
    let baseUrl := normalizeBaseUrl (str (o_baseUrl options)) in
    let client :=
      match axiosInstance with
      | Some instance => instance
      | None =>
          axios_create rt
            {| d_baseURL := Some baseUrl;
               d_timeout :=
                 Some (match o_timeout options with
                       | Some t => if (t =? 0)%Z then 10000%Z else t
                       | None => 10000%Z
                       end);
               d_headers := [("Content-Type", "application/json")] |}
      end in
    Return {| baseUrl := baseUrl; client := client |}.

(** [this.client.request(...)]: the request is handed to the adapter of the
    instance and its outcome goes through the response interceptor. *)
Definition request (m : Method) (url : string) (data : option body)
    (params : option TranscriptQueryParams) : M AxiosResponse :=
  fun c =>
    let instance := client c in
    let config := mergeConfig instance m url data params in
    let c' := recorded config c in
    match adapter instance config with
    | Fulfilled response => (Return (onFulfilled response), c')
    | Rejected error => (Throw (onRejected error), c')
    end.

Definition client_post (url : string) (data : body) : M AxiosResponse :=
  request POST url (Some data) None.

Definition client_get (url : string) (params : option TranscriptQueryParams)
    : M AxiosResponse :=
  request GET url None params.

Definition client_delete (url : string) : M AxiosResponse :=
  request DELETE url None None.

Definition _handleError (error : thrown) (message : string) : thrown :=
  match error with
  | Axios axiosError =>
      match ax_response axiosError with
      | Some response =>
          PlainError (message ++ ": " ++ ToString rt (JNum (r_status response))
                        ++ " - " ++ JSON_stringify rt (r_data response))
      | None =>
          if ax_request axiosError
          then PlainError (message ++ ": No response received from server")
          else PlainError (message ++ ": " ++ message_of error)
      end
  | _ => PlainError (message ++ ": " ++ message_of error)
  end.

Definition _validateApiKey (apiKey : option string) : M unit :=
  when (falsy apiKey || not_a_string apiKey
        || (length (trim (str apiKey)) =? 0)%nat)
    (throw (Typed (new_ValidationError
                     "API key is required and must be a non-empty string" None))).

Definition _validateMeetingUrl (url : option string) : M unit :=
  when (falsy url || not_a_string url || (length (trim (str url)) =? 0)%nat)
    (throw (Typed (new_ValidationError
                     "Meeting URL is required and must be a non-empty string" None))) ;;
  when (negb (URL_parses rt (str url)))
    (throw (Typed (new_ValidationError "Invalid meeting URL format" None))).

Definition _validateUserData (userData : UserData) : M unit :=
  when (falsy (u_email userData) || not_a_string (u_email userData)
        || negb (includes (str (u_email userData)) "@"))
    (throw (Typed (new_ValidationError "Valid email is required" None))) ;;
  when (falsy (u_name userData) || not_a_string (u_name userData)
        || (length (trim (str (u_name userData))) =? 0)%nat)
    (throw (Typed (new_ValidationError
                     "Name is required and must be a non-empty string" None))).

(** [if (error instanceof CueMeetError) throw error;
     throw new CueMeetError(fallback, 500);] *)
Definition rethrow_or {A} (fallback : string) (error : thrown) : M A :=
  if instanceof_CueMeetError error then throw error
  else throw (Typed (new_CueMeetError fallback (Some 500%Z) None None)).

Definition required (message : string) : thrown :=
  Typed (new_CueMeetError message (Some 400%Z) None None).

Definition createUser (userData : UserData) : M jsval :=
  try_catch
    (when (falsy (u_email userData))
       (throw (required "email is required for user creation")) ;;
     when (falsy (u_name userData))
       (throw (required "name is required for user creation")) ;;
     response <- client_post "/auth/register" (BodyUser userData) ;;
     ret (r_data response))
    (rethrow_or "Failed to create user").

Definition createApiKey (keyData : ApiKeyData) : M jsval :=
  when (falsy (k_userId keyData))
    (throw (required "userId is required for API key creation")) ;;
  when (falsy (k_name keyData))
    (throw (required "name is required for API key creation")) ;;
  when (100 <? length (str (k_name keyData)))%nat
    (throw (required "name must not exceed 100 characters")) ;;
  try_catch
    (response <- client_post "/api-keys" (BodyApiKey keyData) ;;
     ret (r_data response))
    (rethrow_or "Failed to create API key").

Definition listApiKeys (userId : option string) : M jsval :=
  when (falsy userId)
    (throw (required "userId is required to list API keys")) ;;
  try_catch
    (response <- client_post "/api-keys/list" (BodyUserId userId) ;;
     ret (r_data response))
    (rethrow_or "Failed to list API keys").

Definition revokeApiKey (keyId : option string) : M jsval :=
  when (falsy keyId)
    (throw (PlainError "keyId is required to revoke an API key")) ;;
  try_catch
    (response <- client_delete ("/api-keys/" ++ tpl keyId) ;;
     ret (r_data response))
    (fun error =>
       throw (_handleError error ("Failed to revoke API key: " ++ tpl keyId))).

Definition createBot (apiKey : option string) (botData : CreateBotRequest)
    : M jsval :=
  when (falsy (b_name botData))
    (throw (required "name is required for bot creation")) ;;
  when (falsy (b_meetingUrl botData))
    (throw (required "meetingUrl is required for bot creation")) ;;
  _validateMeetingUrl (b_meetingUrl botData) ;;
  try_catch
    (response <- client_post "/bots" (BodyBot botData) ;;
     ret (r_data response))
    (rethrow_or "Failed to create bot").

Definition retrieveBot (apiKey botId : option string) : M jsval :=
  _validateApiKey apiKey ;;
  when (falsy botId)
    (throw (required "botId is required to retrieve bot")) ;;
  try_catch
    (response <- client_get ("/bots/" ++ tpl botId) None ;;
     ret (r_data response))
    (rethrow_or "Failed to retrieve bot").

Definition removeBotFromCall (apiKey botId : option string) : M jsval :=
  _validateApiKey apiKey ;;
  when (falsy botId)
    (throw (required "botId is required to remove bot")) ;;
  try_catch
    (response <- client_delete ("/bots/" ++ tpl botId) ;;
     ret (r_data response))
    (rethrow_or "Failed to remove bot").

Definition retrieveTranscript (apiKey id : option string)
    (params : option TranscriptQueryParams) : M jsval :=
  _validateApiKey apiKey ;;
  when (falsy id)
    (throw (required "id is required to retrieve transcript")) ;;
  try_catch
    (response <- client_get ("/transcripts/" ++ tpl id) params ;;
     ret (r_data response))
    (rethrow_or "Failed to retrieve transcript").

Definition setBaseUrl (baseUrl : option string) : M unit :=
  when (falsy baseUrl) (throw (PlainError "baseUrl cannot be empty")) ;;
  fun c =>
    let new := normalizeBaseUrl (str baseUrl) in
    (Return tt,
     {| baseUrl := new;
        client := {| defaults := {| d_baseURL := Some new;
                                    d_timeout := d_timeout (defaults (client c));
                                    d_headers := d_headers (defaults (client c)) |};
                     adapter := adapter (client c);
                     calls := calls (client c) |} |}).

End Client.

(* ===================================================================== *)
(** ** The eight operations as one family                                 *)
(* ===================================================================== *)

Inductive operation :=
| CreateUser (userData : UserData)
| CreateApiKey (keyData : ApiKeyData)
| ListApiKeys (userId : option string)
| RevokeApiKey (keyId : option string)
| CreateBot (apiKey : option string) (botData : CreateBotRequest)
| RetrieveBot (apiKey botId : option string)
| RemoveBotFromCall (apiKey botId : option string)
| RetrieveTranscript (apiKey id : option string)
    (params : option TranscriptQueryParams).

Definition call (rt : Runtime) (op : operation) : M jsval :=
  match op with
  | CreateUser userData => createUser rt userData
  | CreateApiKey keyData => createApiKey rt keyData
  | ListApiKeys userId => listApiKeys rt userId
  | RevokeApiKey keyId => revokeApiKey rt keyId
  | CreateBot apiKey botData => createBot rt apiKey botData
  | RetrieveBot apiKey botId => retrieveBot rt apiKey botId
  | RemoveBotFromCall apiKey botId => removeBotFromCall rt apiKey botId
  | RetrieveTranscript apiKey id params => retrieveTranscript rt apiKey id params
  end.

Definition is_revoke (op : operation) : bool :=
  match op with
  | RevokeApiKey _ => true
  | _ => false
  end.

(** The verb, path, body and query of each operation (the table of the
    request dispatcher), merged with the defaults of the client's instance. *)
Definition request_of (c : CueMeetClient) (op : operation) : AxiosRequestConfig :=
  let mk := mergeConfig (client c) in
  match op with
  | CreateUser userData => mk POST "/auth/register" (Some (BodyUser userData)) None
  | CreateApiKey keyData => mk POST "/api-keys" (Some (BodyApiKey keyData)) None
  | ListApiKeys userId => mk POST "/api-keys/list" (Some (BodyUserId userId)) None
  | RevokeApiKey keyId => mk DELETE ("/api-keys/" ++ tpl keyId) None None
  | CreateBot _ botData => mk POST "/bots" (Some (BodyBot botData)) None
  | RetrieveBot _ botId => mk GET ("/bots/" ++ tpl botId) None None
  | RemoveBotFromCall _ botId => mk DELETE ("/bots/" ++ tpl botId) None None
  | RetrieveTranscript _ id params => mk GET ("/transcripts/" ++ tpl id) None params
  end.

(** A string that is present and not empty after trimming. *)
Definition nonblank (x : option string) : bool :=
  match x with
  | Some s => negb (trim s =? "")
  | None => false
  end.

(** A credential passes the client-side check of [_validateApiKey]. *)
Definition credential_ok (apiKey : option string) : bool := nonblank apiKey.

(** The arguments of an operation pass every check the method makes before
    it touches the transport. *)
Definition accepts (rt : Runtime) (op : operation) : bool :=
  match op with
  | CreateUser userData =>
      negb (falsy (u_email userData)) && negb (falsy (u_name userData))
  | CreateApiKey keyData =>
      negb (falsy (k_userId keyData)) && negb (falsy (k_name keyData))
      && (length (str (k_name keyData)) <=? 100)%nat
  | ListApiKeys userId => negb (falsy userId)
  | RevokeApiKey keyId => negb (falsy keyId)
  | CreateBot _ botData =>
      negb (falsy (b_name botData)) && nonblank (b_meetingUrl botData)
      && URL_parses rt (str (b_meetingUrl botData))
  | RetrieveBot apiKey botId => credential_ok apiKey && negb (falsy botId)
  | RemoveBotFromCall apiKey botId => credential_ok apiKey && negb (falsy botId)
  | RetrieveTranscript apiKey id _ => credential_ok apiKey && negb (falsy id)
  end.

(** What the [catch] clause of an operation throws for the error that the
    awaited request rejected with. *)
Definition caught (rt : Runtime) (op : operation) (error : thrown) : thrown :=
  match op with
  | RevokeApiKey keyId =>
      _handleError rt error ("Failed to revoke API key: " ++ tpl keyId)
  | _ =>
      match error with
      | Typed _ => error
      | _ =>
          Typed (new_CueMeetError
                   match op with
                   | CreateUser _ => "Failed to create user"
                   | CreateApiKey _ => "Failed to create API key"
                   | ListApiKeys _ => "Failed to list API keys"
                   | CreateBot _ _ => "Failed to create bot"
                   | RetrieveBot _ _ => "Failed to retrieve bot"
                   | RemoveBotFromCall _ _ => "Failed to remove bot"
                   | _ => "Failed to retrieve transcript"
                   end (Some 500%Z) None None)
      end
  end.

(** The failures the methods raise before they touch the transport. *)
Definition validation_failures (op : operation) : list thrown :=
  match op with
  | CreateUser _ =>
      [required "email is required for user creation";
       required "name is required for user creation"]
  | CreateApiKey _ =>
      [required "userId is required for API key creation";
       required "name is required for API key creation";
       required "name must not exceed 100 characters"]
  | ListApiKeys _ => [required "userId is required to list API keys"]
  | RevokeApiKey _ => [PlainError "keyId is required to revoke an API key"]
  | CreateBot _ _ =>
      [required "name is required for bot creation";
       required "meetingUrl is required for bot creation";
       Typed (new_ValidationError
                "Meeting URL is required and must be a non-empty string" None);
       Typed (new_ValidationError "Invalid meeting URL format" None)]
  | RetrieveBot _ _ =>
      [Typed (new_ValidationError
                "API key is required and must be a non-empty string" None);
       required "botId is required to retrieve bot"]
  | RemoveBotFromCall _ _ =>
      [Typed (new_ValidationError
                "API key is required and must be a non-empty string" None);
       required "botId is required to remove bot"]
  | RetrieveTranscript _ _ _ =>
      [Typed (new_ValidationError
                "API key is required and must be a non-empty string" None);
       required "id is required to retrieve transcript"]
  end.


(** ['a'.repeat(n)] *)
Fixpoint repeat_string (s : string) (n : nat) : string :=
  match n with
  | O => ""
  | S n' => s ++ repeat_string s n'
  end.

(** The outcome [r] of a call on the client [c] is a rejection with a
    typed error of status 400 that has the given message, and the client,
    its transport's record included, is as it was. *)
Definition rejects_400 (r : completion jsval * CueMeetClient) (c : CueMeetClient)
    (message : string) : Prop :=
  exists t,
    r = (Throw (Typed t), c) /\ e_message t = message /\ e_status t = Some 400%Z.


(** [stored] is [u] without one trailing slash, followed by the version
    suffix. *)
Definition stored_from (u stored : string) : Prop :=
  exists p,
    stored = p ++ "/api/v1"
    /\ (u = p ++ "/" \/ (u = p /\ endsWith u "/" = false))
    /\ (endsWith u "//" = false -> endsWith p "/" = false).

(* ===================================================================== *)
(** ** A client as the test-suite builds it                               *)
(* ===================================================================== *)

(** A runtime double for worked examples: [URL_parses] accepts the strings
    that carry a scheme separator, numbers print in decimal, nothing else
    is printed, and the network never answers. *)
Definition testRuntime : Runtime :=
  {| URL_parses := fun url => includes url "://";
     JSON_stringify := fun _ => "";
     ToString := fun v =>
       match v with
       | JNum n => DecimalString.NilZero.string_of_int (Z.to_int n)
       | _ => ""
       end;
     network := fun _ =>
       Rejected (Axios {| ax_message := "Network Error";
                          ax_response := None; ax_request := true |});
     library_headers := [("Accept", "application/json, text/plain, */*")] |}.

(** [axios.create()] with a mock adapter on it. *)
Definition mockInstance (reply : AxiosRequestConfig -> AxiosResult) : AxiosInstance :=
  {| defaults := {| d_baseURL := None; d_timeout := Some 0%Z;
                    d_headers := library_headers testRuntime |};
     adapter := reply; calls := [] |}.

(** [new CueMeetClient({ baseUrl: 'http://localhost:4000' }, axiosInstance)] *)
Definition mockClient (reply : AxiosRequestConfig -> AxiosResult) : CueMeetClient :=
  {| baseUrl := "http://localhost:4000/api/v1"; client := mockInstance reply |}.

(** [mock.onAny().reply(status, data)]: under axios' default
    [validateStatus] a status from 200 to 299 fulfils, any other rejects
    with an [AxiosError] that carries the response. *)
Definition reply (status : Z) (data : jsval) : AxiosRequestConfig -> AxiosResult :=
  fun _ =>
    let response := {| r_status := status; r_data := data |} in
    if ((200 <=? status) && (status <? 300))%Z then Fulfilled response
    else Rejected (Axios {| ax_message :=
                              "Request failed with status code "
                              ++ ToString testRuntime (JNum status);
                            ax_response := Some response;
                            ax_request := true |}).

(** Clients whose transport answers every request in one fixed way. *)
Definition createdClient : CueMeetClient := mockClient (reply 201 JNull).

Definition unauthorizedClient : CueMeetClient :=
  mockClient (reply 401 (JObj [("message", JStr "invalid credentials")])).

Definition notFoundClient : CueMeetClient :=
  mockClient (reply 404 (JObj [("message", JStr "not found")])).

(** The fixed body of the bot-creation example. *)
Definition botBody : jsval :=
  JObj [("id", JStr "789"); ("name", JStr "B");
        ("meetingUrl", JStr "https://meet.example/abc");
        ("status", JStr "PENDING"); ("retryCount", JNum 0)].

Definition botB : CreateBotRequest :=
  {| b_name := Some "B"; b_meetingUrl := Some "https://meet.example/abc";
     b_title := None; b_recordingMode := None; b_joinAt := None;
     b_leaveAt := None; b_metadata := None |}.

(** The fixed message of the error that the [catch] clause of an operation
    throws for a failure that is not a [CueMeetError]. *)
Definition fallback_message (op : operation) : string :=
  match op with
  | CreateUser _ => "Failed to create user"
  | CreateApiKey _ => "Failed to create API key"
  | ListApiKeys _ => "Failed to list API keys"
  | RevokeApiKey keyId => "Failed to revoke API key: " ++ tpl keyId
  | CreateBot _ _ => "Failed to create bot"
  | RetrieveBot _ _ => "Failed to retrieve bot"
  | RemoveBotFromCall _ _ => "Failed to remove bot"
  | RetrieveTranscript _ _ _ => "Failed to retrieve transcript"
  end.

(** [options.timeout || 10000] *)
Definition timeout_or_default (t : option Z) : Z :=
  match t with
  | Some t' => if (t' =? 0)%Z then 10000%Z else t'
  | None => 10000%Z
  end.

(** The string has a code unit that [trim] keeps. *)
Definition has_visible_char (s : string) : bool :=
  existsb (fun ch => negb (isWhiteSpace ch)) (list_ascii_of_string s).

(** A client whose transport never gets an answer. *)
Definition offlineClient : CueMeetClient :=
  mockClient (fun _ => Rejected (Axios {| ax_message := "Network Error";
                                          ax_response := None;
                                          ax_request := true |})).

(** A client whose adapter throws something that is not an axios error. *)
Definition brokenClient : CueMeetClient :=
  mockClient (fun _ => Rejected (PlainError "adapter exploded")).

(* ===================================================================== *)
(** ** How a call runs                                                    *)
(* ===================================================================== *)

Lemma nonblank_check apiKey :
  falsy apiKey || not_a_string apiKey || (length (trim (str apiKey)) =? 0)%nat
  = negb (nonblank apiKey).
Proof.
  destruct apiKey as [s|]; simpl; [|reflexivity].
  rewrite orb_false_r.
  destruct (trim s) eqn:Ht; simpl.
  - destruct s; reflexivity.
  - destruct s; [discriminate Ht | reflexivity].
Qed.

Lemma nonblank_truthy x : nonblank x = true -> falsy x = false.
Proof.
  destruct x as [[|a s]|]; simpl; try discriminate; reflexivity.
Qed.

Ltac run :=
  unfold call, createUser, createApiKey, listApiKeys, revokeApiKey, createBot,
    retrieveBot, removeBotFromCall, retrieveTranscript, _validateApiKey,
    _validateMeetingUrl, client_post, client_get, client_delete, request,
    rethrow_or, try_catch, bind, when, throw, ret, required, onFulfilled.

Ltac split_checks :=
  repeat match goal with
         | |- context [falsy ?x] => destruct (falsy x) eqn:?; simpl in *
         | |- context [nonblank ?x] => destruct (nonblank x) eqn:?; simpl in *
         | |- context [URL_parses ?r ?x] =>
             destruct (URL_parses r x) eqn:?; simpl in *
         | |- context [(100 <? ?n)%nat] =>
             rewrite (Nat.ltb_antisym n 100); destruct (n <=? 100)%nat eqn:?;
             simpl in *
         end.

(** An accepted call hands exactly one request to the transport, the one of
    the dispatcher's table, and settles with what the adapter answered. *)
Lemma call_accepted rt op c :
  accepts rt op = true ->
  call rt op c =
    (match adapter (client c) (request_of c op) with
     | Fulfilled response => Return (r_data response)
     | Rejected error => Throw (caught rt op (onRejected rt error))
     end,
     recorded (request_of c op) c).
Proof.
  destruct op; simpl; intros H;
    repeat (apply andb_prop in H; destruct H as [H ?]);
    unfold credential_ok in *;
    repeat match goal with
           | E : negb _ = true |- _ => apply negb_true_iff in E
           | E : (_ <=? _)%nat = true |- _ => apply Nat.leb_le in E
           end;
    run; rewrite ?nonblank_check;
    repeat match goal with
           | E : nonblank _ = true |- _ =>
               rewrite ?(nonblank_truthy _ E); rewrite ?E; clear E
           | E : _ = _ |- _ => rewrite ?E; clear E
           end; simpl.
  all: try match goal with
           | E : (_ <= 100)%nat |- _ =>
               apply Nat.leb_le in E; rewrite Nat.ltb_antisym, E; simpl
           end.
  all: destruct (adapter _ _) as [response|error]; try reflexivity.
  all: destruct (onRejected rt error); reflexivity.
Qed.

(** A refused call throws one of these failures and leaves the client, the
    record of its transport included, as it was. *)
Lemma call_refused rt op c :
  accepts rt op = false ->
  exists e, call rt op c = (Throw e, c) /\ In e (validation_failures op).
Proof.
  destruct op; simpl; intros H; run; rewrite ?nonblank_check;
    unfold credential_ok in *;
    repeat match goal with
           | |- context [falsy ?x] => destruct (falsy x) eqn:?; simpl in *
           | |- context [nonblank ?x] => destruct (nonblank x) eqn:?; simpl in *
           | |- context [URL_parses ?r ?x] =>
               destruct (URL_parses r x) eqn:?; simpl in *
           | |- context [(100 <? ?n)%nat] =>
               rewrite (Nat.ltb_antisym n 100); destruct (n <=? 100)%nat eqn:?;
               simpl in *
           end;
    try discriminate;
    eexists; (split; [reflexivity | simpl; tauto]).
Qed.

(* ===================================================================== *)
(** ** Facts about the string built-ins                                   *)
(* ===================================================================== *)

Lemma length_app s t : length (s ++ t) = (length s + length t)%nat.
Proof. induction s as [|a s IH]; simpl; [reflexivity | now rewrite IH]. Qed.

Lemma substring_all t : substring 0 (length t) t = t.
Proof. induction t as [|a t IH]; simpl; [reflexivity | now rewrite IH]. Qed.

Lemma substring_app_l s t : substring 0 (length s) (s ++ t) = s.
Proof.
  induction s as [|a s IH]; simpl.
  - destruct t; reflexivity.
  - now rewrite IH.
Qed.

Lemma substring_app_r s t : substring (length s) (length t) (s ++ t) = t.
Proof. induction s as [|a s IH]; simpl; [apply substring_all | exact IH]. Qed.

Lemma substring_split s n :
  (n <= length s)%nat -> substring 0 n s ++ substring n (length s - n) s = s.
Proof.
  revert n; induction s as [|a s IH]; intros [|n] Hn; simpl in *;
    try reflexivity; try lia.
  - now rewrite substring_all.
  - rewrite IH by lia. reflexivity.
Qed.

Lemma endsWith_app s t : endsWith (s ++ t) t = true.
Proof.
  unfold endsWith. rewrite length_app.
  replace (length s + length t - length t)%nat with (length s) by lia.
  rewrite substring_app_r, String.eqb_refl, andb_true_r.
  apply Nat.leb_le. lia.
Qed.

Lemma endsWith_inv s t :
  endsWith s t = true -> s = substring 0 (length s - length t) s ++ t.
Proof.
  unfold endsWith. intros H. apply andb_prop in H as [Hl He].
  apply Nat.leb_le in Hl. apply String.eqb_eq in He.
  rewrite <- (substring_split s (length s - length t)) at 1 by lia.
  replace (length s - (length s - length t))%nat with (length t) by lia.
  now rewrite He.
Qed.

Lemma slice_drop_last s : s <> "" -> slice s 0 (-1) = substring 0 (length s - 1) s.
Proof.
  intros Hs. unfold slice, rel_index. simpl.
  destruct s as [|a s]; [contradiction|]. cbn [length].
  replace (Z.to_nat (Z.max (Z.of_nat (S (length s)) + -1) 0)) with (length s) by lia.
  replace (S (length s) - 1)%nat with (length s) by lia.
  now rewrite Nat.sub_0_r.
Qed.

Lemma slice_app_slash p : slice (p ++ "/") 0 (-1) = p.
Proof.
  rewrite slice_drop_last by (destruct p; discriminate).
  rewrite length_app. simpl.
  replace (length p + 1 - 1)%nat with (length p) by lia.
  apply substring_app_l.
Qed.

Lemma app_assoc_str s t u : (s ++ t) ++ u = s ++ (t ++ u).
Proof. induction s as [|a s IH]; simpl; [reflexivity | now rewrite IH]. Qed.

(** The normalised base URL, seen through concatenation only. *)
Lemma normalizeBaseUrl_slash p : normalizeBaseUrl (p ++ "/") = p ++ "/api/v1".
Proof.
  unfold normalizeBaseUrl. now rewrite endsWith_app, slice_app_slash.
Qed.

Lemma normalizeBaseUrl_no_slash u :
  endsWith u "/" = false -> normalizeBaseUrl u = u ++ "/api/v1".
Proof. unfold normalizeBaseUrl. now intros ->. Qed.

Example constructor_mock r :
  constructor testRuntime
    {| o_baseUrl := Some "http://localhost:4000"; o_timeout := None |}
    (Some (mockInstance r))
  = Return (mockClient r).
Proof. reflexivity. Qed.

Example constructor_requires_baseUrl :
  constructor testRuntime {| o_baseUrl := None; o_timeout := None |} None
  = Throw (PlainError "baseUrl is required for CueMeet client initialization").
Proof. reflexivity. Qed.

Example createUser_missing_email :
  fst (createUser testRuntime {| u_email := None; u_name := Some "Test User" |}
         (mockClient (reply 201 JNull)))
  = Throw (required "email is required for user creation").
Proof. reflexivity. Qed.

Example createApiKey_created :
  let data := JObj [("id", JStr "456"); ("apiKey", JStr "test-api-key")] in
  fst (createApiKey testRuntime
         {| k_userId := Some "123"; k_name := Some "Test API Key";
            k_expiresAt := None; k_permissions := None |}
         (mockClient (reply 201 data)))
  = Return data.
Proof. reflexivity. Qed.

Example retrieveBot_missing_botId :
  fst (retrieveBot testRuntime (Some "test-api-key") (Some "")
         (mockClient (reply 200 JNull)))
  = Throw (required "botId is required to retrieve bot").
Proof. reflexivity. Qed.

Example setBaseUrl_staging r :
  baseUrl (snd (setBaseUrl (Some "https://api-staging.cuemeet.com") (mockClient r)))
  = "https://api-staging.cuemeet.com/api/v1".
Proof. reflexivity. Qed.

Example setBaseUrl_empty r :
  setBaseUrl (Some "") (mockClient r)
  = (Throw (PlainError "baseUrl cannot be empty"), mockClient r).
Proof. reflexivity. Qed.



(** For the seven operations other than [revokeApiKey], a typed error that
    the awaited request rejects with reaches the caller as it is. *)
Lemma typed_error_passes_through rt op c error t :
  is_revoke op = false ->
  accepts rt op = true ->
  adapter (client c) (request_of c op) = Rejected error ->
  onRejected rt error = Typed t ->
  fst (call rt op c) = Throw (Typed t).
Proof.
  intros Hop Hacc Hrej Ht. rewrite (call_accepted _ _ _ Hacc), Hrej, Ht.
  destruct op; try discriminate Hop; reflexivity.
Qed.

(** For the same seven operations, a failure of the transport that carries
    a server response reaches the caller as a typed error with the
    response's status and with the server's message, or the transport's
    own message when the body has none. *)
Lemma server_error_is_typed rt op c ae response :
  is_revoke op = false ->
  accepts rt op = true ->
  adapter (client c) (request_of c op) = Rejected (Axios ae) ->
  ax_response ae = Some response ->
  exists t,
    fst (call rt op c) = Throw (Typed t)
    /\ e_status t = Some (r_status response)
    /\ e_message t =
         (if truthy (opt_get (r_data response) "message")
          then message_string rt (opt_get (r_data response) "message")
          else ax_message ae).
Proof.
  intros Hop Hacc Hrej Hresp.
  eexists. split.
  - eapply typed_error_passes_through; eauto. reflexivity.
  - simpl. rewrite Hresp. simpl. split; [reflexivity|].
    destruct (truthy _); reflexivity.
Qed.

(* ===================================================================== *)
(** ** C1, C2: what revokeApiKey does with a failed request               *)
(* ===================================================================== *)

(** C1: the claim holds for seven operations ([typed_error_passes_through])
    and fails for [revokeApiKey]: every typed error that reaches its [catch]
    clause, here the one its own response interceptor has just raised, is
    replaced by a plain [Error] that keeps only the message text. *)
Theorem revokeApiKey_wraps_typed_error rt keyId c error t :
  falsy keyId = false ->
  adapter (client c) (request_of c (RevokeApiKey keyId)) = Rejected error ->
  onRejected rt error = Typed t ->
  fst (revokeApiKey rt keyId c)
  = Throw (PlainError (("Failed to revoke API key: " ++ tpl keyId)
                         ++ ": " ++ e_message t)).
Proof.
  intros Hk Hrej Ht.
  assert (Hacc : accepts rt (RevokeApiKey keyId) = true) by (simpl; now rewrite Hk).
  pose proof (call_accepted rt _ c Hacc) as Hcall. simpl call in Hcall.
  rewrite Hcall, Hrej. simpl. rewrite Ht. reflexivity.
Qed.

Lemma revokeApiKey_wraps_typed_error_witness :
  falsy (Some "k1") = false
  /\ fst (revokeApiKey testRuntime (Some "k1") unauthorizedClient)
     = Throw (PlainError "Failed to revoke API key: k1: invalid credentials").
Proof.
  split; [reflexivity|].
  apply (revokeApiKey_wraps_typed_error testRuntime (Some "k1") unauthorizedClient
           (Axios {| ax_message := "Request failed with status code 401";
                     ax_response :=
                       Some {| r_status := 401;
                               r_data := JObj [("message", JStr "invalid credentials")] |};
                     ax_request := true |})
           (new_CueMeetError "invalid credentials" (Some 401%Z) None None));
    reflexivity.
Defined.

(** C2: with a mocked 404 response whose body is [{message: "not found"}],
    [retrieveBot] rejects with the typed error of status 404 and message
    "not found", as the claim says; [revokeApiKey] under the same response
    rejects with a plain [Error] that has no status. *)
Theorem revokeApiKey_drops_status :
  fst (retrieveBot testRuntime (Some "key") (Some "missing-id") notFoundClient)
  = Throw (Typed (new_CueMeetError "not found" (Some 404%Z) None None))
  /\ includes "not found" "not found" = true
  /\ fst (revokeApiKey testRuntime (Some "missing-id") notFoundClient)
     = Throw (PlainError "Failed to revoke API key: missing-id: not found").
Proof. repeat split. Qed.

(* ===================================================================== *)
(** ** C3, C4, C5, C9: the checks made before the transport is used       *)
(* ===================================================================== *)

(** C3: a required field that is absent or empty makes the call reject
    before the transport is used, with the failure of that very field:
    the client is left as it was, so the transport has recorded no
    request. The methods check in source order (email before name, userId
    before name, name before meetingUrl, the credential before the
    identifier). For createUser, createApiKey, listApiKeys, createBot,
    retrieveBot, removeBotFromCall and retrieveTranscript the failure is a
    typed error of status 400 whose message names the field; for
    revokeApiKey it is a plain [Error], outside the hierarchy and without
    status, where the claim expects the same kind of failure as for the
    siblings. *)
Theorem missing_field_failure_names_field rt c :
  (forall userData,
      falsy (u_email userData) = true ->
      rejects_400 (createUser rt userData c) c "email is required for user creation")
  /\ (forall userData,
        falsy (u_email userData) = false -> falsy (u_name userData) = true ->
        rejects_400 (createUser rt userData c) c "name is required for user creation")
  /\ (forall keyData,
        falsy (k_userId keyData) = true ->
        rejects_400 (createApiKey rt keyData c) c
          "userId is required for API key creation")
  /\ (forall keyData,
        falsy (k_userId keyData) = false -> falsy (k_name keyData) = true ->
        rejects_400 (createApiKey rt keyData c) c
          "name is required for API key creation")
  /\ (forall userId,
        falsy userId = true ->
        rejects_400 (listApiKeys rt userId c) c "userId is required to list API keys")
  /\ (forall apiKey botData,
        falsy (b_name botData) = true ->
        rejects_400 (createBot rt apiKey botData c) c
          "name is required for bot creation")
  /\ (forall apiKey botData,
        falsy (b_name botData) = false -> falsy (b_meetingUrl botData) = true ->
        rejects_400 (createBot rt apiKey botData c) c
          "meetingUrl is required for bot creation")
  /\ (forall apiKey botId,
        credential_ok apiKey = true -> falsy botId = true ->
        rejects_400 (retrieveBot rt apiKey botId c) c
          "botId is required to retrieve bot")
  /\ (forall apiKey botId,
        credential_ok apiKey = true -> falsy botId = true ->
        rejects_400 (removeBotFromCall rt apiKey botId c) c
          "botId is required to remove bot")
  /\ (forall apiKey id params,
        credential_ok apiKey = true -> falsy id = true ->
        rejects_400 (retrieveTranscript rt apiKey id params c) c
          "id is required to retrieve transcript")
  /\ (forall apiKey botId id params,
        credential_ok apiKey = false ->
        rejects_400 (retrieveBot rt apiKey botId c) c
          "API key is required and must be a non-empty string"
        /\ rejects_400 (removeBotFromCall rt apiKey botId c) c
             "API key is required and must be a non-empty string"
        /\ rejects_400 (retrieveTranscript rt apiKey id params c) c
             "API key is required and must be a non-empty string")
  /\ (forall keyId,
        falsy keyId = true ->
        revokeApiKey rt keyId c
        = (Throw (PlainError "keyId is required to revoke an API key"), c)
        /\ ~ (exists message, rejects_400 (revokeApiKey rt keyId c) c message)).
Proof.
  unfold rejects_400, credential_ok.
  repeat split; intros; run; rewrite ?nonblank_check;
    repeat match goal with
           | E : _ = true |- _ => rewrite ?E; clear E
           | E : _ = false |- _ => rewrite ?E; clear E
           end;
    simpl; try reflexivity;
    try (eexists; repeat split; reflexivity).
  intros [message [t [Ht _]]]. discriminate Ht.
Qed.

Lemma missing_field_failure_names_field_witness :
  falsy (Some "") = true
  /\ revokeApiKey testRuntime (Some "") createdClient
     = (Throw (PlainError "keyId is required to revoke an API key"), createdClient)
  /\ rejects_400
       (createUser testRuntime {| u_email := Some ""; u_name := Some "Test User" |}
          createdClient)
       createdClient "email is required for user creation".
Proof.
  split; [reflexivity|].
  pose proof (missing_field_failure_names_field testRuntime createdClient) as H.
  split.
  - apply H. reflexivity.
  - apply H. reflexivity.
Defined.




(** C5: createUser never calls [_validateUserData]. With the email
    "invalid", which has no '@', and a name, the request goes out and the
    call resolves with the server's body, although [_validateUserData]
    rejects this very input. *)
Theorem createUser_dispatches_email_without_at :
  includes "invalid" "@" = false
  /\ call testRuntime
       (CreateUser {| u_email := Some "invalid"; u_name := Some "John Doe" |})
       createdClient
     = (Return JNull,
        recorded
          (mergeConfig (client createdClient) POST "/auth/register"
             (Some (BodyUser {| u_email := Some "invalid";
                                u_name := Some "John Doe" |})) None)
          createdClient)
  /\ _validateUserData {| u_email := Some "invalid"; u_name := Some "John Doe" |}
       createdClient
     = (Throw (Typed (new_ValidationError "Valid email is required" None)),
        createdClient).
Proof. repeat split. Qed.

(** C9, as stated, fails: with a name of 101 characters and an empty userId the
    call is rejected for the missing userId, and that message does not
    mention the limit. *)
Lemma name_limit_counterexample :
  length (repeat_string "a" 101) = 101%nat
  /\ call testRuntime
       (CreateApiKey {| k_userId := Some ""; k_name := Some (repeat_string "a" 101);
                        k_expiresAt := None; k_permissions := None |})
       createdClient
     = (Throw (required "userId is required for API key creation"), createdClient)
  /\ includes "userId is required for API key creation" "100" = false.
Proof. repeat split. Qed.

(** C9, amended: for every input with a non-empty userId, a name longer
    than 100 characters makes createApiKey reject with the status-400
    failure "name must not exceed 100 characters" and no request is
    dispatched; a non-empty name of at most 100 characters raises no
    validation failure: the request is handed to the transport. *)
Theorem createApiKey_name_limit rt keyData c :
  falsy (k_userId keyData) = false ->
  ((100 < length (str (k_name keyData)))%nat ->
   createApiKey rt keyData c
   = (Throw (required "name must not exceed 100 characters"), c)
   /\ includes "name must not exceed 100 characters" "100 characters" = true)
  /\ (falsy (k_name keyData) = false ->
      (length (str (k_name keyData)) <= 100)%nat ->
      dispatched (snd (createApiKey rt keyData c))
      = request_of c (CreateApiKey keyData) :: dispatched c).
Proof.
  intros Hu. split.
  - intros Hlen. split; [|reflexivity].
    assert (Hn : falsy (k_name keyData) = false).
    { destruct (k_name keyData) as [[|a s]|]; simpl in *; try lia; reflexivity. }
    apply Nat.ltb_lt in Hlen.
    run. rewrite Hu, Hn, Hlen. reflexivity.
  - intros Hn Hlen.
    assert (Hacc : accepts rt (CreateApiKey keyData) = true).
    { simpl. rewrite Hu, Hn. simpl. now apply Nat.leb_le. }
    pose proof (call_accepted rt _ c Hacc) as Hcall. simpl call in Hcall.
    rewrite Hcall. reflexivity.
Qed.

Lemma createApiKey_name_limit_witness :
  falsy (Some "u1") = false
  /\ (100 < length (repeat_string "a" 101))%nat
  /\ createApiKey testRuntime
       {| k_userId := Some "u1"; k_name := Some (repeat_string "a" 101);
          k_expiresAt := None; k_permissions := None |} createdClient
     = (Throw (required "name must not exceed 100 characters"), createdClient).
Proof.
  split; [reflexivity|]. split; [simpl; lia|].
  apply (createApiKey_name_limit testRuntime
           {| k_userId := Some "u1"; k_name := Some (repeat_string "a" 101);
              k_expiresAt := None; k_permissions := None |} createdClient);
    [reflexivity | simpl; lia].
Defined.

(* ===================================================================== *)
(** ** C6, C7: the base URL                                               *)
(* ===================================================================== *)

(** C6, as stated, fails for an input that already ends with a slash: only
    one slash is removed, so "https://x.com/" and "https://x.com//" leave
    different base URLs. *)
Lemma trailing_slash_counterexample :
  "https://x.com/" <> ""
  /\ baseUrl (snd (setBaseUrl (Some "https://x.com/") createdClient))
     = "https://x.com/api/v1"
  /\ baseUrl (snd (setBaseUrl (Some ("https://x.com/" ++ "/")) createdClient))
     = "https://x.com//api/v1"
  /\ baseUrl (snd (setBaseUrl (Some "https://x.com/") createdClient))
     <> baseUrl (snd (setBaseUrl (Some ("https://x.com/" ++ "/")) createdClient)).
Proof. repeat split; discriminate. Qed.

(** C6, amended: for every non-empty input [u] that does not already end
    with a slash, reconfiguring with [u] and with [u] followed by a slash
    leave the same base URL, [u] followed by "/api/v1". *)
Theorem trailing_slash_normalised u c :
  u <> "" ->
  endsWith u "/" = false ->
  baseUrl (snd (setBaseUrl (Some u) c)) = u ++ "/api/v1"
  /\ baseUrl (snd (setBaseUrl (Some (u ++ "/")) c)) = u ++ "/api/v1".
Proof.
  intros Hu Hend.
  assert (Hf : falsy (Some u) = false) by (destruct u; [contradiction | reflexivity]).
  assert (Hf' : falsy (Some (u ++ "/")) = false) by (destruct u; reflexivity).
  unfold setBaseUrl, bind, when, throw, ret. rewrite Hf, Hf'. simpl.
  now rewrite normalizeBaseUrl_slash, normalizeBaseUrl_no_slash.
Qed.

Lemma trailing_slash_normalised_witness :
  "https://x.com" <> ""
  /\ endsWith "https://x.com" "/" = false
  /\ baseUrl (snd (setBaseUrl (Some "https://x.com") createdClient))
     = "https://x.com/api/v1"
  /\ baseUrl (snd (setBaseUrl (Some "https://x.com/") createdClient))
     = "https://x.com/api/v1".
Proof.
  split; [discriminate|]. split; [reflexivity|].
  apply (trailing_slash_normalised "https://x.com" createdClient);
    [discriminate | reflexivity].
Defined.

Lemma stored_from_normalize u : u <> "" -> stored_from u (normalizeBaseUrl u).
Proof.
  intros Hu. destruct (endsWith u "/") eqn:Hend.
  - pose proof (endsWith_inv _ _ Hend) as Hp.
    set (p := substring 0 (length u - length "/") u) in Hp.
    exists p. rewrite Hp at 1. rewrite normalizeBaseUrl_slash.
    split; [reflexivity|]. split; [now left|].
    intros H2. destruct (endsWith p "/") eqn:Hpe; [|reflexivity].
    pose proof (endsWith_inv _ _ Hpe) as Hq.
    rewrite Hp, Hq, app_assoc_str in H2. simpl in H2.
    now rewrite endsWith_app in H2.
  - exists u. rewrite normalizeBaseUrl_no_slash by assumption.
    split; [reflexivity|]. split; [now right | intros _; assumption].
Qed.

(** C7, as stated, fails: reconfiguring with "https://x.com/" does not
    store the input followed by the suffix, and after reconfiguring with
    "https://x.com//" the part before the suffix still ends with a slash. *)
Lemma base_url_invariant_counterexample :
  baseUrl (snd (setBaseUrl (Some "https://x.com/") createdClient))
  <> "https://x.com/" ++ "/api/v1"
  /\ baseUrl (snd (setBaseUrl (Some "https://x.com//") createdClient))
     = "https://x.com/" ++ "/api/v1"
  /\ endsWith "https://x.com/" "/" = true.
Proof. repeat split; discriminate. Qed.

(** C7, amended: after initialization or any reconfiguration with a
    non-empty input URL, the stored base URL is the input without one
    trailing slash (when it has one) followed by "/api/v1"; the part
    before the suffix does not end with a slash unless the input ended
    with two; and none of the eight operations changes the base URL. *)
Theorem base_url_invariant rt u :
  u <> "" ->
  (forall t instance, exists c,
      constructor rt {| o_baseUrl := Some u; o_timeout := t |} instance = Return c
      /\ stored_from u (baseUrl c))
  /\ (forall c, exists c',
        setBaseUrl (Some u) c = (Return tt, c')
        /\ stored_from u (baseUrl c')
        /\ dispatched c' = dispatched c)
  /\ (forall op c, baseUrl (snd (call rt op c)) = baseUrl c).
Proof.
  intros Hu.
  assert (Hf : falsy (Some u) = false) by (destruct u; [contradiction | reflexivity]).
  split; [|split].
  - intros t instance. unfold constructor. cbn [o_baseUrl]. rewrite Hf.
    eexists. split; [reflexivity|]. simpl. now apply stored_from_normalize.
  - intros c. unfold setBaseUrl, bind, when, throw, ret. rewrite Hf.
    eexists. split; [reflexivity|]. simpl. split; [|reflexivity].
    now apply stored_from_normalize.
  - intros op c. destruct (accepts rt op) eqn:Hacc.
    + now rewrite (call_accepted _ _ _ Hacc).
    + destruct (call_refused rt op c Hacc) as [e [-> _]]. reflexivity.
Qed.

Lemma base_url_invariant_witness :
  "https://x.com/" <> ""
  /\ exists c',
       setBaseUrl (Some "https://x.com/") createdClient = (Return tt, c')
       /\ stored_from "https://x.com/" (baseUrl c')
       /\ dispatched c' = dispatched createdClient.
Proof.
  split; [discriminate|].
  apply (base_url_invariant testRuntime "https://x.com/"). discriminate.
Defined.

(* ===================================================================== *)
(** ** C8, C10: what goes to the transport and what comes back            *)
(* ===================================================================== *)

(** C8: for every operation whose arguments pass the checks, when the
    transport fulfils the request (axios fulfils the 2xx responses), the
    call resolves with the body of the response, exactly as it was
    received. *)
Theorem success_body_returned_unmodified rt op c response :
  accepts rt op = true ->
  adapter (client c) (request_of c op) = Fulfilled response ->
  fst (call rt op c) = Return (r_data response).
Proof.
  intros Hacc Hful. now rewrite (call_accepted _ _ _ Hacc), Hful.
Qed.

Lemma success_body_returned_unmodified_witness :
  accepts testRuntime (CreateBot (Some "key") botB) = true
  /\ fst (createBot testRuntime (Some "key") botB (mockClient (reply 201 botBody)))
     = Return botBody.
Proof.
  split; [reflexivity|].
  apply (success_body_returned_unmodified testRuntime (CreateBot (Some "key") botB)
           (mockClient (reply 201 botBody))
           {| r_status := 201; r_data := botBody |});
    reflexivity.
Defined.

(** C10: the credential is checked and then dropped. For any two
    credentials that pass the client-side check, createBot, retrieveBot,
    removeBotFromCall and retrieveTranscript hand the same requests (verb,
    path, headers, body and query) to the transport, and settle alike. *)
Theorem credential_not_in_request rt k1 k2 c :
  credential_ok k1 = true ->
  credential_ok k2 = true ->
  (forall botData,
      createBot rt k1 botData c = createBot rt k2 botData c
      /\ dispatched (snd (createBot rt k1 botData c))
         = dispatched (snd (createBot rt k2 botData c)))
  /\ (forall botId,
        retrieveBot rt k1 botId c = retrieveBot rt k2 botId c
        /\ dispatched (snd (retrieveBot rt k1 botId c))
           = dispatched (snd (retrieveBot rt k2 botId c)))
  /\ (forall botId,
        removeBotFromCall rt k1 botId c = removeBotFromCall rt k2 botId c
        /\ dispatched (snd (removeBotFromCall rt k1 botId c))
           = dispatched (snd (removeBotFromCall rt k2 botId c)))
  /\ (forall id params,
        retrieveTranscript rt k1 id params c = retrieveTranscript rt k2 id params c
        /\ dispatched (snd (retrieveTranscript rt k1 id params c))
           = dispatched (snd (retrieveTranscript rt k2 id params c))).
Proof.
  unfold credential_ok. intros H1 H2.
  assert (Hcheck : forall A (k : M A),
             bind (_validateApiKey k1) (fun _ => k) c
             = bind (_validateApiKey k2) (fun _ => k) c).
  { intros A k. unfold _validateApiKey, bind, when, throw, ret.
    now rewrite !nonblank_check, H1, H2. }
  repeat split; intros;
    try (unfold retrieveBot, removeBotFromCall, retrieveTranscript;
         now rewrite Hcheck).
Qed.

Lemma credential_not_in_request_witness :
  credential_ok (Some "key-one") = true
  /\ credential_ok (Some " key-two ") = true
  /\ dispatched (snd (retrieveBot testRuntime (Some "key-one") (Some "789")
                        createdClient))
     = dispatched (snd (retrieveBot testRuntime (Some " key-two ") (Some "789")
                          createdClient)).
Proof.
  split; [reflexivity|]. split; [reflexivity|].
  apply (credential_not_in_request testRuntime (Some "key-one") (Some " key-two ")
           createdClient); reflexivity.
Defined.

(* ===================================================================== *)
(** ** Further properties: one request per call, no state between calls   *)
(* ===================================================================== *)

(** The failure of a refused call does not depend on the client. *)
Lemma call_refused_uniform rt op :
  accepts rt op = false ->
  exists e, forall c, call rt op c = (Throw e, c).
Proof.
  destruct op; simpl; intros H; run; rewrite ?nonblank_check;
    unfold credential_ok in *; split_checks; try discriminate;
    eexists; intros c; reflexivity.
Qed.

Lemma request_of_same_defaults c c' op :
  defaults (client c') = defaults (client c) ->
  request_of c' op = request_of c op.
Proof.
  intros H. destruct op; unfold request_of, mergeConfig; now rewrite H.
Qed.

(** A call changes nothing of the client but the record of the requests. *)
Lemma call_keeps_configuration rt op c :
  baseUrl (snd (call rt op c)) = baseUrl c
  /\ defaults (client (snd (call rt op c))) = defaults (client c)
  /\ adapter (client (snd (call rt op c))) = adapter (client c).
Proof.
  destruct (accepts rt op) eqn:Hacc.
  - rewrite (call_accepted _ _ _ Hacc). simpl. auto.
  - destruct (call_refused rt op c Hacc) as [e [-> _]]. simpl. auto.
Qed.

Lemma dispatched_after_call rt op c :
  dispatched (snd (call rt op c))
  = if accepts rt op then request_of c op :: dispatched c else dispatched c.
Proof.
  destruct (accepts rt op) eqn:Hacc.
  - now rewrite (call_accepted _ _ _ Hacc).
  - destruct (call_refused rt op c Hacc) as [e [-> _]]. reflexivity.
Qed.

(** Every call hands at most one request to the transport: exactly the one
    of the dispatcher's table when the arguments pass the checks, whether
    the transport then fulfils or rejects it (nothing is retried), and none
    when a check fails. *)
Theorem one_request_per_call rt op c :
  dispatched (snd (call rt op c))
  = (if accepts rt op then request_of c op :: dispatched c else dispatched c)
  /\ (List.length (dispatched (snd (call rt op c)))
      <= S (List.length (dispatched c)))%nat.
Proof.
  rewrite dispatched_after_call. split; [reflexivity|].
  destruct (accepts rt op); simpl; lia.
Qed.

(** What an operation sends does not depend on the calls made before it:
    after any other operation, refused or accepted, fulfilled or rejected,
    it hands to the transport the request it would have handed before
    (same verb, path, base URL, headers, timeout, body and query), and the
    transport's record holds the requests in call order. Nothing is said
    here about what the backend answers. *)
Theorem requests_do_not_depend_on_earlier_calls rt op1 op2 c :
  dispatched (snd (call rt op2 (snd (call rt op1 c))))
  = ((if accepts rt op2 then [request_of c op2] else [])
     ++ (if accepts rt op1 then [request_of c op1] else [])
     ++ dispatched c)%list.
Proof.
  destruct (call_keeps_configuration rt op1 c) as [_ [Hd _]].
  rewrite dispatched_after_call, (request_of_same_defaults _ _ _ Hd),
    dispatched_after_call.
  destruct (accepts rt op2), (accepts rt op1); reflexivity.
Qed.

(* ===================================================================== *)
(** ** Further properties: what a rejected call carries                   *)
(* ===================================================================== *)

(** The response interceptor never lets an [AxiosError] through. *)
Lemma onRejected_not_axios rt error : isAxiosError (onRejected rt error) = false.
Proof. destruct error; reflexivity. Qed.

(** Whatever makes a call reject, the seven operations other than
    revokeApiKey reject with an error of the [CueMeetError] hierarchy, and
    revokeApiKey rejects with a plain [Error], never with a typed one. *)
Theorem rejection_class rt op c e c' :
  call rt op c = (Throw e, c') ->
  if is_revoke op then exists m, e = PlainError m else exists t, e = Typed t.
Proof.
  intros Hcall. destruct (accepts rt op) eqn:Hacc.
  - rewrite (call_accepted _ _ _ Hacc) in Hcall.
    destruct (adapter (client c) (request_of c op)) as [r|error];
      [discriminate|].
    injection Hcall as <- _.
    destruct op; simpl;
      try (destruct (onRejected rt error); eexists; reflexivity).
    unfold _handleError.
    destruct (onRejected rt error) as [m|t|ae]; try (eexists; reflexivity).
    destruct (ax_response ae); [|destruct (ax_request ae)]; eexists; reflexivity.
  - destruct (call_refused rt op c Hacc) as [e0 [H0 Hin]].
    rewrite H0 in Hcall. injection Hcall as <- _.
    destruct op; simpl in *;
      repeat (destruct Hin as [<- | Hin]); try contradiction;
      eexists; reflexivity.
Qed.

Lemma rejection_class_witness :
  call testRuntime (ListApiKeys (Some "123")) offlineClient
  = (Throw (Typed (new_CueMeetError "Network Error" None None None)),
     recorded (request_of offlineClient (ListApiKeys (Some "123"))) offlineClient)
  /\ exists t, Typed (new_CueMeetError "Network Error" None None None) = Typed t.
Proof.
  split; [reflexivity|].
  apply (rejection_class testRuntime (ListApiKeys (Some "123")) offlineClient _
           (recorded (request_of offlineClient (ListApiKeys (Some "123")))
              offlineClient)).
  reflexivity.
Defined.

(** When the transport fails without any response (network error,
    timeout), the seven operations other than revokeApiKey reject with a
    base typed error that has the transport's own message, no status and
    no kind. *)
Theorem network_failure_has_no_status rt op c ae :
  is_revoke op = false ->
  accepts rt op = true ->
  adapter (client c) (request_of c op) = Rejected (Axios ae) ->
  ax_response ae = None ->
  fst (call rt op c)
  = Throw (Typed (new_CueMeetError (ax_message ae) None None None)).
Proof.
  intros Hop Hacc Hrej Hresp.
  rewrite (call_accepted _ _ _ Hacc), Hrej. simpl. rewrite Hresp. simpl.
  destruct op; try discriminate Hop; reflexivity.
Qed.

Lemma network_failure_has_no_status_witness :
  fst (call testRuntime (RemoveBotFromCall (Some "test-api-key") (Some "789"))
         offlineClient)
  = Throw (Typed (new_CueMeetError "Network Error" None None None)).
Proof.
  apply (network_failure_has_no_status testRuntime
           (RemoveBotFromCall (Some "test-api-key") (Some "789")) offlineClient
           {| ax_message := "Network Error"; ax_response := None;
              ax_request := true |}); reflexivity.
Defined.

(** When the awaited request fails with an error that is neither an axios
    error nor a [CueMeetError], the seven operations other than
    revokeApiKey reject with a base typed error of status 500 that carries
    the fixed message of the operation; the message of the original error
    is not kept. *)
Theorem unexpected_failure_becomes_500 rt op c m :
  is_revoke op = false ->
  accepts rt op = true ->
  adapter (client c) (request_of c op) = Rejected (PlainError m) ->
  fst (call rt op c)
  = Throw (Typed (new_CueMeetError (fallback_message op) (Some 500%Z) None None)).
Proof.
  intros Hop Hacc Hrej. rewrite (call_accepted _ _ _ Hacc), Hrej.
  destruct op; try discriminate Hop; reflexivity.
Qed.

Lemma unexpected_failure_becomes_500_witness :
  fst (call testRuntime
         (CreateUser {| u_email := Some "jeff@gmail.com"; u_name := Some "Test User" |})
         brokenClient)
  = Throw (Typed (new_CueMeetError "Failed to create user" (Some 500%Z) None None)).
Proof.
  apply (unexpected_failure_becomes_500 testRuntime
           (CreateUser {| u_email := Some "jeff@gmail.com";
                          u_name := Some "Test User" |})
           brokenClient "adapter exploded"); reflexivity.
Defined.

(** [_handleError] always builds a plain [Error] whose message starts
    with the caller's message followed by ": ". *)
Theorem handleError_prefixes_message rt error message :
  exists rest, _handleError rt error message = PlainError (message ++ ": " ++ rest).
Proof.
  unfold _handleError. destruct error as [m|t|ae]; try (eexists; reflexivity).
  destruct (ax_response ae); [|destruct (ax_request ae)]; eexists; reflexivity.
Qed.

(** Whatever the transport rejects with, revokeApiKey rejects with the
    plain [Error] "Failed to revoke API key: <keyId>: <message>", where
    the message is the one the response interceptor produced. The two
    axios branches of [_handleError] (status and body, "No response
    received from server") are never taken on this path. *)
Theorem revokeApiKey_rejection_message rt keyId c error :
  falsy keyId = false ->
  adapter (client c) (request_of c (RevokeApiKey keyId)) = Rejected error ->
  fst (revokeApiKey rt keyId c)
  = Throw (PlainError (("Failed to revoke API key: " ++ tpl keyId)
                         ++ ": " ++ message_of (onRejected rt error))).
Proof.
  intros Hk Hrej.
  assert (Hacc : accepts rt (RevokeApiKey keyId) = true) by (simpl; now rewrite Hk).
  pose proof (call_accepted rt _ c Hacc) as Hcall. simpl call in Hcall.
  rewrite Hcall, Hrej. simpl. unfold _handleError.
  pose proof (onRejected_not_axios rt error) as Hna.
  destruct (onRejected rt error); [reflexivity | reflexivity | discriminate Hna].
Qed.

Lemma revokeApiKey_rejection_message_witness :
  fst (revokeApiKey testRuntime (Some "k1") offlineClient)
  = Throw (PlainError "Failed to revoke API key: k1: Network Error").
Proof.
  apply (revokeApiKey_rejection_message testRuntime (Some "k1") offlineClient
           (Axios {| ax_message := "Network Error"; ax_response := None;
                     ax_request := true |})); reflexivity.
Defined.

(* ===================================================================== *)
(** ** Further properties: the private validators                         *)
(* ===================================================================== *)

Lemma dropWhiteSpace_nil l :
  dropWhiteSpace l = [] <-> forallb isWhiteSpace l = true.
Proof.
  induction l as [|ch l IH]; simpl; [tauto|].
  destruct (isWhiteSpace ch); simpl; [exact IH|].
  split; discriminate.
Qed.

Lemma dropWhiteSpace_fixed l :
  forallb isWhiteSpace (dropWhiteSpace l) = true -> dropWhiteSpace l = [].
Proof.
  induction l as [|ch l IH]; simpl; [reflexivity|].
  destruct (isWhiteSpace ch) eqn:Hch; [exact IH|].
  simpl. rewrite Hch. discriminate.
Qed.

Lemma forallb_rev {A} (f : A -> bool) l : forallb f (rev l) = forallb f l.
Proof.
  induction l as [|a l IH]; simpl; [reflexivity|].
  rewrite forallb_app, IH. simpl. rewrite andb_true_r. apply andb_comm.
Qed.

Lemma forallb_not_existsb l :
  forallb isWhiteSpace l = negb (existsb (fun ch => negb (isWhiteSpace ch)) l).
Proof.
  induction l as [|ch l IH]; simpl; [reflexivity|].
  rewrite IH. now destruct (isWhiteSpace ch).
Qed.

(** [trim] leaves nothing exactly when every code unit is white space. *)
Lemma trim_empty_iff s : trim s = "" <-> has_visible_char s = false.
Proof.
  unfold trim, has_visible_char.
  set (l := list_ascii_of_string s).
  assert (Hs : forall x, string_of_list_ascii x = "" <-> x = []).
  { intros [|a x]; simpl; split; try reflexivity; discriminate. }
  assert (Hr : forall x : list ascii, rev x = [] <-> x = []).
  { intros [|a x]; simpl; split; try reflexivity; try discriminate.
    intros H. now apply app_eq_nil in H as [_ H]. }
  rewrite Hs, Hr, dropWhiteSpace_nil, forallb_rev.
  split.
  - intros H. apply dropWhiteSpace_fixed in H. apply dropWhiteSpace_nil in H.
    rewrite forallb_not_existsb in H. now apply negb_true_iff in H.
  - intros H. assert (Hd : dropWhiteSpace l = []).
    { apply dropWhiteSpace_nil. rewrite forallb_not_existsb. now rewrite H. }
    now rewrite Hd.
Qed.

Lemma nonblank_visible x :
  nonblank x = match x with Some s => has_visible_char s | None => false end.
Proof.
  destruct x as [s|]; simpl; [|reflexivity].
  destruct (has_visible_char s) eqn:Hv.
  - apply negb_true_iff, String.eqb_neq. rewrite trim_empty_iff. now rewrite Hv.
  - apply negb_false_iff, String.eqb_eq. now apply trim_empty_iff.
Qed.

(** [_validateApiKey] lets a credential pass exactly when it is a string
    with at least one code unit that is not white space; an absent, empty
    or white-space-only credential gets the [ValidationError], and the
    client is untouched either way. *)
Theorem validateApiKey_needs_visible_char apiKey c :
  _validateApiKey apiKey c
  = if match apiKey with Some s => has_visible_char s | None => false end
    then (Return tt, c)
    else (Throw (Typed (new_ValidationError
                          "API key is required and must be a non-empty string"
                          None)), c).
Proof.
  unfold _validateApiKey, when, throw, ret.
  rewrite nonblank_check, nonblank_visible.
  now destruct (match apiKey with Some s => has_visible_char s | None => false end).
Qed.

(** retrieveBot, removeBotFromCall and retrieveTranscript check the
    credential first: with a credential that fails the check they reject
    with the API-key [ValidationError] whatever the identifier (present,
    empty or absent), and the transport sees nothing. *)
Theorem blank_credential_rejected_first rt apiKey c :
  credential_ok apiKey = false ->
  let failure :=
    (Throw (Typed (new_ValidationError
                     "API key is required and must be a non-empty string" None)),
     c) in
  (forall botId, retrieveBot rt apiKey botId c = failure)
  /\ (forall botId, removeBotFromCall rt apiKey botId c = failure)
  /\ (forall id params, retrieveTranscript rt apiKey id params c = failure).
Proof.
  unfold credential_ok. intros H. repeat split; intros; run;
    now rewrite nonblank_check, H.
Qed.

Lemma blank_credential_rejected_first_witness :
  credential_ok (Some "   ") = false
  /\ retrieveBot testRuntime (Some "   ") None createdClient
     = (Throw (Typed (new_ValidationError
                        "API key is required and must be a non-empty string" None)),
        createdClient).
Proof.
  split; [reflexivity|].
  apply (blank_credential_rejected_first testRuntime (Some "   ") createdClient).
  reflexivity.
Defined.

(** createBot makes no check of its credential: when the bot's name and
    meeting URL pass their checks the request is dispatched for every
    [apiKey], an absent, empty or blank one too. *)
Theorem createBot_skips_credential_check rt apiKey botData c :
  falsy (b_name botData) = false ->
  nonblank (b_meetingUrl botData) = true ->
  URL_parses rt (str (b_meetingUrl botData)) = true ->
  createBot rt apiKey botData c
  = (match adapter (client c) (request_of c (CreateBot apiKey botData)) with
     | Fulfilled response => Return (r_data response)
     | Rejected error =>
         Throw (caught rt (CreateBot apiKey botData) (onRejected rt error))
     end,
     recorded (request_of c (CreateBot apiKey botData)) c).
Proof.
  intros Hn Hu Hp.
  apply (call_accepted rt (CreateBot apiKey botData) c).
  simpl. now rewrite Hn, Hu, Hp.
Qed.

Lemma createBot_skips_credential_check_witness :
  credential_ok (Some "") = false
  /\ createBot testRuntime (Some "") botB (mockClient (reply 201 botBody))
     = (Return botBody,
        recorded (request_of (mockClient (reply 201 botBody))
                    (CreateBot (Some "") botB))
          (mockClient (reply 201 botBody))).
Proof.
  split; [reflexivity|].
  apply (createBot_skips_credential_check testRuntime (Some "") botB
           (mockClient (reply 201 botBody))); reflexivity.
Defined.

(** createBot with a name and a non-empty meeting URL: a URL of white
    space only is rejected with "Meeting URL is required and must be a
    non-empty string", a URL that [new URL] does not accept with "Invalid
    meeting URL format"; both are [ValidationError]s raised before the
    transport is used. *)
Theorem createBot_rejects_bad_url rt apiKey botData c :
  falsy (b_name botData) = false ->
  falsy (b_meetingUrl botData) = false ->
  (nonblank (b_meetingUrl botData) = false ->
   createBot rt apiKey botData c
   = (Throw (Typed (new_ValidationError
                      "Meeting URL is required and must be a non-empty string"
                      None)), c))
  /\ (nonblank (b_meetingUrl botData) = true ->
      URL_parses rt (str (b_meetingUrl botData)) = false ->
      createBot rt apiKey botData c
      = (Throw (Typed (new_ValidationError "Invalid meeting URL format" None)), c)).
Proof.
  intros Hn Hu. split.
  - intros Hb. run. now rewrite nonblank_check, Hn, Hu, Hb.
  - intros Hb Hp. run. now rewrite nonblank_check, Hn, Hu, Hb, Hp.
Qed.

Lemma createBot_rejects_bad_url_witness :
  createBot testRuntime (Some "key")
    {| b_name := Some "B"; b_meetingUrl := Some "not-a-url"; b_title := None;
       b_recordingMode := None; b_joinAt := None; b_leaveAt := None;
       b_metadata := None |} createdClient
  = (Throw (Typed (new_ValidationError "Invalid meeting URL format" None)),
     createdClient).
Proof.
  apply (createBot_rejects_bad_url testRuntime (Some "key")
           {| b_name := Some "B"; b_meetingUrl := Some "not-a-url"; b_title := None;
              b_recordingMode := None; b_joinAt := None; b_leaveAt := None;
              b_metadata := None |} createdClient); reflexivity.
Defined.

(** [_validateUserData] throws "Valid email is required" when the email
    is absent or has no '@', else "Name is required and must be a non-empty
    string" when the name is absent or has only white space, and returns
    otherwise, never touching the client; whatever it lets pass also passes
    the two checks that createUser makes itself. *)
Theorem validateUserData_behaviour userData c :
  _validateUserData userData c
  = (if includes (str (u_email userData)) "@"
     then if match u_name userData with
             | Some n => has_visible_char n
             | None => false
             end
          then (Return tt, c)
          else (Throw (Typed (new_ValidationError
                                "Name is required and must be a non-empty string"
                                None)), c)
     else (Throw (Typed (new_ValidationError "Valid email is required" None)), c))
  /\ (_validateUserData userData c = (Return tt, c) ->
      forall rt, accepts rt (CreateUser userData) = true).
Proof.
  assert (He : falsy (u_email userData) || not_a_string (u_email userData)
               || negb (includes (str (u_email userData)) "@")
               = negb (includes (str (u_email userData)) "@")).
  { destruct (u_email userData) as [[|a s]|]; reflexivity. }
  assert (Hrun : _validateUserData userData c
                 = if includes (str (u_email userData)) "@"
                   then if nonblank (u_name userData) then (Return tt, c)
                        else (Throw (Typed (new_ValidationError
                                "Name is required and must be a non-empty string"
                                None)), c)
                   else (Throw (Typed (new_ValidationError
                                         "Valid email is required" None)), c)).
  { unfold _validateUserData, bind, when, throw, ret.
    rewrite He, nonblank_check.
    destruct (includes _ _); simpl; [|reflexivity].
    destruct (nonblank _); reflexivity. }
  rewrite Hrun, <- nonblank_visible.
  split; [reflexivity|].
  intros H rt. simpl.
  destruct (includes (str (u_email userData)) "@") eqn:Hi; [|discriminate H].
  destruct (nonblank (u_name userData)) eqn:Hb; [|discriminate H].
  rewrite (nonblank_truthy _ Hb).
  destruct (u_email userData) as [[|a s]|]; try discriminate Hi. reflexivity.
Qed.

(* ===================================================================== *)
(** ** Further properties: configuration                                  *)
(* ===================================================================== *)

Lemma nonempty_truthy u : u <> "" -> falsy (Some u) = false.
Proof. destruct u; [contradiction | reflexivity]. Qed.

Lemma last_char_eq s t a b :
  s ++ String a "" = t ++ String b "" -> a = b.
Proof.
  revert t; induction s as [|x s IH]; intros [|y t] H; simpl in H.
  - now injection H.
  - injection H as _ H. destruct t; discriminate H.
  - injection H as _ H. destruct s; discriminate H.
  - injection H as _ H. now apply (IH t).
Qed.

Lemma suffix_has_no_trailing_slash p : endsWith (p ++ "/api/v1") "/" = false.
Proof.
  destruct (endsWith (p ++ "/api/v1") "/") eqn:He; [|reflexivity].
  apply endsWith_inv in He.
  change (p ++ "/api/v1") with (p ++ ("/api/v" ++ "1")) in He at 1.
  rewrite <- app_assoc_str in He.
  apply last_char_eq in He. discriminate He.
Qed.

(** A client built without an injected instance starts with a transport
    that has seen nothing, and sends its request with the normalised base
    URL, with the timeout of the options (10000 ms when that is absent or
    0), and with the header Content-Type: application/json next to the
    headers that the defaults of the axios library add. *)
Theorem constructor_configures_own_instance rt u t op :
  u <> "" ->
  accepts rt op = true ->
  exists c r,
    constructor rt {| o_baseUrl := Some u; o_timeout := t |} None = Return c
    /\ dispatched c = []
    /\ dispatched (snd (call rt op c)) = [r]
    /\ baseURL r = Some (normalizeBaseUrl u)
    /\ timeout r = Some (timeout_or_default t)
    /\ In ("Content-Type", "application/json") (headers r)
    /\ incl (library_headers rt) (headers r).
Proof.
  intros Hu Hacc. unfold constructor. cbn [o_baseUrl o_timeout].
  rewrite (nonempty_truthy _ Hu).
  eexists. eexists. split; [reflexivity|]. split; [reflexivity|].
  rewrite dispatched_after_call, Hacc.
  split; [reflexivity|].
  destruct op; (split; [reflexivity|]); (split; [reflexivity|]);
    (split; [now left | now apply incl_tl, incl_refl]).
Qed.

Lemma constructor_configures_own_instance_witness :
  exists c r,
    constructor testRuntime
      {| o_baseUrl := Some "https://api.cuemeet.com/"; o_timeout := Some 0%Z |} None
    = Return c
    /\ dispatched c = []
    /\ dispatched (snd (call testRuntime (ListApiKeys (Some "u1")) c)) = [r]
    /\ baseURL r = Some (normalizeBaseUrl "https://api.cuemeet.com/")
    /\ timeout r = Some (timeout_or_default (Some 0%Z))
    /\ In ("Content-Type", "application/json") (headers r)
    /\ incl (library_headers testRuntime) (headers r).
Proof.
  apply (constructor_configures_own_instance testRuntime
           "https://api.cuemeet.com/" (Some 0%Z) (ListApiKeys (Some "u1")));
    [discriminate | reflexivity].
Defined.

(** With an injected axios instance the constructor stores the normalised
    base URL on the client but does not configure the instance: requests
    keep the instance's own base URL, headers and timeout until
    [setBaseUrl] is called. *)
Theorem constructor_leaves_injected_instance rt u t instance op :
  u <> "" ->
  accepts rt op = true ->
  exists c,
    constructor rt {| o_baseUrl := Some u; o_timeout := t |} (Some instance)
    = Return c
    /\ baseUrl c = normalizeBaseUrl u
    /\ client c = instance
    /\ map baseURL (dispatched (snd (call rt op c)))
       = d_baseURL (defaults instance) :: map baseURL (calls instance)
    /\ map headers (dispatched (snd (call rt op c)))
       = d_headers (defaults instance) :: map headers (calls instance)
    /\ map timeout (dispatched (snd (call rt op c)))
       = d_timeout (defaults instance) :: map timeout (calls instance).
Proof.
  intros Hu Hacc. unfold constructor. cbn [o_baseUrl o_timeout].
  rewrite (nonempty_truthy _ Hu).
  eexists. split; [reflexivity|]. split; [reflexivity|]. split; [reflexivity|].
  rewrite dispatched_after_call, Hacc. destruct op; repeat split.
Qed.

Lemma constructor_leaves_injected_instance_witness :
  exists c,
    constructor testRuntime
      {| o_baseUrl := Some "http://localhost:4000"; o_timeout := None |}
      (Some (mockInstance (reply 200 JNull)))
    = Return c
    /\ baseUrl c = normalizeBaseUrl "http://localhost:4000"
    /\ client c = mockInstance (reply 200 JNull)
    /\ map baseURL
         (dispatched (snd (call testRuntime (RetrieveBot (Some "key") (Some "789")) c)))
       = d_baseURL (defaults (mockInstance (reply 200 JNull)))
         :: map baseURL (calls (mockInstance (reply 200 JNull)))
    /\ map headers
         (dispatched (snd (call testRuntime (RetrieveBot (Some "key") (Some "789")) c)))
       = d_headers (defaults (mockInstance (reply 200 JNull)))
         :: map headers (calls (mockInstance (reply 200 JNull)))
    /\ map timeout
         (dispatched (snd (call testRuntime (RetrieveBot (Some "key") (Some "789")) c)))
       = d_timeout (defaults (mockInstance (reply 200 JNull)))
         :: map timeout (calls (mockInstance (reply 200 JNull))).
Proof.
  apply (constructor_leaves_injected_instance testRuntime "http://localhost:4000"
           None (mockInstance (reply 200 JNull))
           (RetrieveBot (Some "key") (Some "789")));
    [discriminate | reflexivity].
Defined.

(** After [setBaseUrl] with a non-empty URL every later request is the
    request the operation would have sent before, with the normalised
    new URL as its base URL; verb, path, body, query, headers and timeout
    are untouched, and so is the record of the earlier requests. *)
Theorem setBaseUrl_reaches_requests rt u op c :
  u <> "" ->
  accepts rt op = true ->
  dispatched (snd (call rt op (snd (setBaseUrl (Some u) c))))
  = {| method := method (request_of c op);
       url := url (request_of c op);
       baseURL := Some (normalizeBaseUrl u);
       timeout := timeout (request_of c op);
       headers := headers (request_of c op);
       data := data (request_of c op);
       params := params (request_of c op) |}
    :: dispatched c.
Proof.
  intros Hu Hacc. rewrite dispatched_after_call, Hacc.
  unfold setBaseUrl, bind, when, throw, ret.
  rewrite (nonempty_truthy _ Hu). destruct op; reflexivity.
Qed.

Lemma setBaseUrl_reaches_requests_witness :
  map baseURL
    (dispatched (snd (call testRuntime (ListApiKeys (Some "123"))
                        (snd (setBaseUrl (Some "https://api-staging.cuemeet.com/")
                                createdClient)))))
  = [Some "https://api-staging.cuemeet.com/api/v1"].
Proof.
  rewrite (setBaseUrl_reaches_requests testRuntime
             "https://api-staging.cuemeet.com/" (ListApiKeys (Some "123"))
             createdClient); [reflexivity | discriminate | reflexivity].
Defined.

(** The last reconfiguration wins: what an earlier [setBaseUrl] did,
    whether it succeeded or was rejected for an empty URL, leaves no trace
    after a later one with a non-empty URL. *)
Theorem setBaseUrl_last_write_wins u1 u2 c :
  u2 <> "" ->
  snd (setBaseUrl (Some u2) (snd (setBaseUrl u1 c)))
  = snd (setBaseUrl (Some u2) c).
Proof.
  intros Hu. unfold setBaseUrl, bind, when, throw, ret.
  rewrite (nonempty_truthy _ Hu). destruct (falsy u1); reflexivity.
Qed.

Lemma setBaseUrl_last_write_wins_witness :
  snd (setBaseUrl (Some "https://b.example")
         (snd (setBaseUrl (Some "https://a.example/") createdClient)))
  = snd (setBaseUrl (Some "https://b.example") createdClient).
Proof.
  apply (setBaseUrl_last_write_wins (Some "https://a.example/") "https://b.example").
  discriminate.
Defined.

(** [setBaseUrl] expects the bare origin: feeding it the base URL the
    client has stored appends the version suffix a second time. *)
Theorem setBaseUrl_on_stored_url_doubles_suffix u c :
  u <> "" ->
  baseUrl (snd (setBaseUrl (Some (baseUrl (snd (setBaseUrl (Some u) c))))
                  (snd (setBaseUrl (Some u) c))))
  = baseUrl (snd (setBaseUrl (Some u) c)) ++ "/api/v1".
Proof.
  intros Hu.
  assert (Hs : baseUrl (snd (setBaseUrl (Some u) c)) = normalizeBaseUrl u).
  { unfold setBaseUrl, bind, when, throw, ret.
    now rewrite (nonempty_truthy _ Hu). }
  rewrite Hs.
  destruct (stored_from_normalize u Hu) as [p [Hp _]].
  assert (Hne : normalizeBaseUrl u <> "") by (rewrite Hp; destruct p; discriminate).
  unfold setBaseUrl at 1. unfold bind, when, throw, ret.
  rewrite (nonempty_truthy _ Hne). simpl.
  apply normalizeBaseUrl_no_slash. rewrite Hp. apply suffix_has_no_trailing_slash.
Qed.

Lemma setBaseUrl_on_stored_url_doubles_suffix_witness :
  baseUrl (snd (setBaseUrl
                  (Some (baseUrl (snd (setBaseUrl (Some "https://x.com/")
                                         createdClient))))
                  (snd (setBaseUrl (Some "https://x.com/") createdClient))))
  = "https://x.com/api/v1/api/v1".
Proof.
  rewrite (setBaseUrl_on_stored_url_doubles_suffix "https://x.com/" createdClient);
    [reflexivity | discriminate].
Defined.
